(** * Error normalisation of the web client

    A shallow embedding of the client-side glue in [frontend/src]:
    the status table [getStatusMessage] and the classifier
    [extractErrorMessage] of [error-handler.ts], the [BillingError] class
    of [lib/api.ts], the interfaces of [lib/api-client.ts] and the
    authentication client factory [createClient].

    The classifier takes a value of type [any], so it is modelled over a
    datatype of JavaScript values, with property access, optional
    chaining, truthiness, [instanceof] and [typeof] written out, and with
    a completion type that records whether evaluation returns or throws. *)

From Stdlib Require Import String Ascii ZArith List Bool Lia DecimalString.
From Stdlib Require Import DecimalPos DecimalZ.
Import ListNotations.
Local Open Scope string_scope.
Local Open Scope Z_scope.

Set Warnings "-register-all".

(** ** JavaScript values *)

Module Js.

(** Numbers.  The code under study only tests numbers for truthiness,
    compares them with integer literals ([switch]) and prints them in a
    template literal, so a number is its integer value or [NaN]; a
    fractional value behaves there like any non-zero integer outside the
    status table. *)
Inductive number : Type :=
| Finite (z : Z)
| NaN.

(** The prototype chain an object hangs from: a plain object literal,
    an [Error] (or a subclass other than [BillingError]), a
    [BillingError]. *)
Inductive Class : Type :=
| PlainObject
| ErrorObject
| BillingErrorObject.

(** Values.  An object is its class and its own data properties, first
    binding of a name first.  Arrays and functions carry none of the
    property names read below and behave like plain objects here.
    Accessor properties and proxies, whose reads run code of the
    caller's and may throw, are not values of this type: every statement
    below that speaks of every value speaks of the values made of data
    properties. *)
Inductive Value : Type :=
| JUndefined
| JNull
| JBool (b : bool)
| JNum (n : number)
| JStr (s : string)
| JObj (c : Class) (props : list (string * Value)).

(** Evaluation either returns normally or throws. *)
Inductive Completion (A : Type) : Type :=
| Normal (a : A)
| Throw (reason : string).

Arguments Normal {A} a.
Arguments Throw {A} reason.

Definition bind {A B : Type} (c : Completion A) (k : A -> Completion B)
  : Completion B :=
  match c with
  | Normal a => k a
  | Throw r => Throw r
  end.

Notation "x <- c ;; k" := (bind c (fun x => k))
  (at level 61, c at next level, right associativity).

(** [ToBoolean]: the falsy values are [undefined], [null], [false], [0],
    [NaN] and the empty string. *)
Definition truthy (v : Value) : bool :=
  match v with
  | JUndefined | JNull => false
  | JBool b => b
  | JNum (Finite z) => negb (z =? 0)
  | JNum NaN => false
  | JStr s => negb (s =? "")%string
  | JObj _ _ => true
  end.

(** [a || b] *)
Definition or_else (a b : Value) : Value := if truthy a then a else b.

(** [typeof v === 'string'] *)
Definition typeof_string (v : Value) : bool :=
  match v with
  | JStr _ => true
  | _ => false
  end.

(** [v instanceof Error] and [v instanceof BillingError]: a walk up the
    prototype chain, false on every primitive. *)
Definition instanceof_Error (v : Value) : bool :=
  match v with
  | JObj ErrorObject _ | JObj BillingErrorObject _ => true
  | _ => false
  end.

Definition instanceof_BillingError (v : Value) : bool :=
  match v with
  | JObj BillingErrorObject _ => true
  | _ => false
  end.

Fixpoint lookup (k : string) (props : list (string * Value)) : option Value :=
  match props with
  | [] => None
  | (k', v) :: rest => if (k' =? k)%string then Some v else lookup k rest
  end.

(** What the prototype chain supplies when the object has no own
    property of that name: [Error.prototype] holds [message = ""] and
    [name = "Error"]; nothing else that is read here is inherited. *)
Definition inherited (c : Class) (k : string) : Value :=
  match c with
  | PlainObject => JUndefined
  | ErrorObject | BillingErrorObject =>
      if (k =? "message")%string then JStr ""
      else if (k =? "name")%string then JStr "Error"
      else JUndefined
  end.

(** [v.k]: throws a TypeError on [undefined] and [null]; on the other
    primitives the names read here are not defined. *)
Definition get (v : Value) (k : string) : Completion Value :=
  match v with
  | JUndefined | JNull => Throw "TypeError"
  | JBool _ | JNum _ | JStr _ => Normal JUndefined
  | JObj c props =>
      match lookup k props with
      | Some x => Normal x
      | None => Normal (inherited c k)
      end
  end.

(** [v?.k] *)
Definition get_opt (v : Value) (k : string) : Completion Value :=
  match v with
  | JUndefined | JNull => Normal JUndefined
  | _ => get v k
  end.

(** The value a property read yields when it does not throw. *)
Definition field (v : Value) (k : string) : Value :=
  match v with
  | JObj c props =>
      match lookup k props with
      | Some x => x
      | None => inherited c k
      end
  | _ => JUndefined
  end.

(** [undefined] and [null], the two values a property read throws on. *)
Definition nullish (v : Value) : bool :=
  match v with
  | JUndefined | JNull => true
  | _ => false
  end.

(** [status === n] for a numeric literal [n] *)
Definition strict_eq_lit (status : Value) (n : Z) : bool :=
  match status with
  | JNum (Finite z) => z =? n
  | _ => false
  end.

(** A field is present when it holds a truthy value, and counts as absent
    when it is missing ([undefined]) or holds a falsy value. *)
Definition present (v : Value) : Prop := truthy v = true.
Definition absent (v : Value) : Prop := truthy v = false.

End Js.

Import Js.

(** ** error-handler.ts *)

Definition getStatusMessage (status : Value) : string :=
  if strict_eq_lit status 400 then
    "Invalid request. Please check your input and try again."
  else if strict_eq_lit status 401 then
    "Authentication required. Please sign in again."
  else if strict_eq_lit status 403 then
    "Access denied. You don't have permission to perform this action."
  else if strict_eq_lit status 404 then
    "The requested resource was not found."
  else if strict_eq_lit status 408 then
    "Request timeout. Please try again."
  else if strict_eq_lit status 409 then
    "Conflict detected. The resource may have been modified by another user."
  else if strict_eq_lit status 422 then
    "Invalid data provided. Please check your input."
  else if strict_eq_lit status 429 then
    "Too many requests. Please wait a moment and try again."
  else if strict_eq_lit status 500 then
    "Server error. Our team has been notified."
  else if strict_eq_lit status 502 then
    "Service temporarily unavailable. Please try again in a moment."
  else if strict_eq_lit status 503 then
    "Service maintenance in progress. Please try again later."
  else if strict_eq_lit status 504 then
    "Request timeout. The server took too long to respond."
  else
    "An unexpected error occurred. Please try again.".

Definition extractErrorMessage (error : Value) : Completion Value :=
  if instanceof_BillingError error then
    detail <- get error "detail" ;;
    dm <- get_opt detail "message" ;;
    if truthy dm then
      Normal dm
    else
      m <- get error "message" ;;
      Normal (or_else m (JStr "Billing issue detected"))
  else if instanceof_Error error then
    get error "message"
  else
    response <- get_opt error "response" ;;
    if truthy response then
      r <- get error "response" ;;
      status <- get r "status" ;;
      Normal (JStr (getStatusMessage status))
    else
      st <- get_opt error "status" ;;
      if truthy st then
        status <- get error "status" ;;
        Normal (JStr (getStatusMessage status))
      else if typeof_string error then
        Normal error
      else
        m <- get_opt error "message" ;;
        if truthy m then
          get error "message"
        else
          e <- get_opt error "error" ;;
          if truthy e then
            e1 <- get error "error" ;;
            if typeof_string e1 then
              get error "error"
            else
              e2 <- get error "error" ;;
              em <- get e2 "message" ;;
              Normal (or_else em (JStr "Unknown error"))
          else
            Normal (JStr "An unexpected error occurred").

(** The object literal [{response: {status}}] and friends. *)
Definition obj (props : list (string * Value)) : Value := JObj PlainObject props.
Definition num (z : Z) : Value := JNum (Finite z).

(** ** The status table as the specification prints it *)

Definition status_table : list (Z * string) :=
  [ (400, "Invalid request. Please check your input and try again.");
    (401, "Authentication required. Please sign in again.");
    (403, "Access denied. You don't have permission to perform this action.");
    (404, "The requested resource was not found.");
    (408, "Request timeout. Please try again.");
    (409, "Conflict detected. The resource may have been modified by another user.");
    (422, "Invalid data provided. Please check your input.");
    (429, "Too many requests. Please wait a moment and try again.");
    (500, "Server error. Our team has been notified.");
    (502, "Service temporarily unavailable. Please try again in a moment.");
    (503, "Service maintenance in progress. Please try again later.");
    (504, "Request timeout. The server took too long to respond.") ].

Definition default_status_message : string :=
  "An unexpected error occurred. Please try again.".

Fixpoint table_find (s : Z) (t : list (Z * string)) : option string :=
  match t with
  | [] => None
  | (k, m) :: rest => if k =? s then Some m else table_find s rest
  end.

(** Reading the printed table, with its last row for every other status. *)
Definition table_message (s : Z) : string :=
  match table_find s status_table with
  | Some m => m
  | None => default_status_message
  end.

(** ** lib/api.ts: the BillingError class *)

(** [`${n}`] for a number *)
Definition number_to_string (n : number) : string :=
  match n with
  | Finite z => NilZero.string_of_int (Z.to_int z)
  | NaN => "NaN"
  end.

(** [a || b] on two values of type [string] *)
Definition str_or (a b : string) : string :=
  if (a =? "")%string then b else a.

(** [this.k = v]: overwrite the own property or add it. *)
Fixpoint assign (k : string) (v : Value) (props : list (string * Value))
  : list (string * Value) :=
  match props with
  | [] => [(k, v)]
  | (k', v') :: rest =>
      if (k' =? k)%string then (k, v) :: rest else (k', v') :: assign k v rest
  end.

(** [new Error(message)]: an own [message] property is created only when
    an argument is given. *)
Definition Error_new (message : option string) : Value :=
  match message with
  | Some m => JObj ErrorObject [("message", JStr m)]
  | None => JObj ErrorObject []
  end.

(** The constructor's [detail] parameter,
    [{ message: string; [key: string]: any }]. *)
Record Detail : Type := mkDetail {
  detail_message : string;
  detail_rest : list (string * Value)
}.

Definition detail_value (d : Detail) : Value :=
  obj (("message", JStr (detail_message d)) :: detail_rest d).

(** [message || detail.message || `Billing Error: ${status}`], with the
    optional parameter [message?: string]. *)
Definition BillingError_message
  (status : number) (detail : Detail) (message : option string) : string :=
  str_or (match message with Some m => m | None => "" end)
    (str_or (detail_message detail)
       ("Billing Error: " ++ number_to_string status)).

Definition BillingError_new
  (status : number) (detail : Detail) (message : option string) : Value :=
  match Error_new (Some (BillingError_message status detail message)) with
  | JObj _ props =>
      JObj BillingErrorObject
        (assign "detail" (detail_value detail)
           (assign "status" (JNum status)
              (assign "name" (JStr "BillingError") props)))
  | other => other
  end.

(** ** lib/api-client.ts: the interfaces *)

Definition API_URL (NEXT_PUBLIC_BACKEND_URL : option string) : string :=
  match NEXT_PUBLIC_BACKEND_URL with
  | Some u => str_or u ""
  | None => ""
  end.

Record ErrorContext : Type := mkErrorContext {
  operation : option string;
  resource : option string;
  silent : option bool
}.

Record ApiClientOptions : Type := mkApiClientOptions {
  showErrors : option bool;
  errorContext : option ErrorContext;
  timeout : option nat
}.

(** The transport's [Response], of which only the status is looked at. *)
Record Response : Type := mkResponse {
  response_status : Z
}.

(** Modelled from the spec: the kinds of failure told apart at the
    wrapper, the network error and the response error of section 4.2. *)
Inductive ErrorKind : Type :=
| NetworkError
| ResponseError.

(** [interface ApiError extends Error]: the message of [Error] and the
    four optional fields, together with the kind of the code path that
    built the error, which the interface itself does not record. *)
Record ApiError : Type := mkApiError {
  error_kind : ErrorKind;
  error_message : string;
  error_status : option Z;
  error_code : option string;
  error_details : option Value;
  error_response : option Response
}.

Record ApiResponse (T : Type) : Type := mkApiResponse {
  data : option T;
  error : option ApiError;
  success : bool
}.

Arguments mkApiResponse {T} _ _ _.
Arguments data {T} _.
Arguments error {T} _.
Arguments success {T} _.

(** ** The invocation wrapper *)

Section Wrapper.

Variable T : Type.

(** The text a network error carries; the specification does not fix it. *)
Variable network_message : string.

(** Modelled from the spec: what the network does with the call, the
    transport being an external collaborator: the server answers after
    so many milliseconds with a status and a body, the connection fails
    after so many milliseconds, or nothing ever comes back. *)
Inductive Transport : Type :=
| Responds (after : nat) (status : Z) (body : T)
| Unreachable (after : nat)
| Hangs.

(** Modelled from the spec: how the call settles for the wrapper. *)
Inductive Settled : Type :=
| Answered (status : Z) (body : T)
| ConnectionFailed
| TimedOut.

(** Modelled from the spec: the race between the network response and
    the timer of [options.timeout] (section 5); the wrapper that runs
    it is not among the sources.  Whichever resolves first determines
    the outcome; when both fall on the same instant the response is
    taken.  Without a timer a call that never comes back never
    settles. *)
Definition race (limit : option nat) (t : Transport) : option Settled :=
  match t, limit with
  | Responds after status body, Some ms =>
      if (ms <? after)%nat then Some TimedOut else Some (Answered status body)
  | Responds _ status body, None => Some (Answered status body)
  | Unreachable after, Some ms =>
      if (ms <? after)%nat then Some TimedOut else Some ConnectionFailed
  | Unreachable _, None => Some ConnectionFailed
  | Hangs, Some _ => Some TimedOut
  | Hangs, None => None
  end.

(** Modelled from the spec: [handleNetworkError], imported by
    [api-client.ts] from the error handler but not among the sources.
    A transport-level failure is a network error, built without
    consulting the status table. *)
Definition handleNetworkError : ApiError :=
  mkApiError NetworkError network_message None None None None.

(** Modelled from the spec: [handleApiError], imported by
    [api-client.ts] from the error handler but not among the sources.
    A non-success status is classified against the status table. *)
Definition handleApiError (status : Z) : ApiError :=
  mkApiError ResponseError (getStatusMessage (num status))
    (Some status) None None (Some (mkResponse status)).

(** Modelled from the spec: whether the notification is raised
    (section 4.2): [showErrors] defaults to true and
    [errorContext.silent] suppresses it. *)
Definition notifies (options : ApiClientOptions) : bool :=
  match showErrors options with
  | Some b => b
  | None => true
  end
  && negb match errorContext options with
          | Some ctx => match silent ctx with Some b => b | None => false end
          | None => false
          end.

(** Modelled from the spec: the notification carries the message. *)
Definition notification (options : ApiClientOptions) (e : ApiError)
  : list string :=
  if notifies options then [error_message e] else [].

(** Modelled from the spec: a success status is a 2xx one. *)
Definition is_success_status (status : Z) : bool :=
  (200 <=? status) && (status <? 300).

(** Modelled from the spec: the API invocation wrapper [invoke] of
    section 4.2, which is not among the sources (only [ApiResponse] and
    [ApiClientOptions] are).  The result is the tagged response and the
    notifications raised; [None] when the call never settles. *)
Definition invoke (t : Transport) (options : ApiClientOptions)
  : option (ApiResponse T * list string) :=
  match race (timeout options) t with
  | None => None
  | Some (Answered status body) =>
      if is_success_status status then
        Some (mkApiResponse (Some body) None true, [])
      else
        let e := handleApiError status in
        Some (mkApiResponse None (Some e) false, notification options e)
  | Some ConnectionFailed | Some TimedOut =>
      let e := handleNetworkError in
      Some (mkApiResponse None (Some e) false, notification options e)
  end.

(** Modelled from the spec: the call times out when the timer wins the
    race. *)
Definition times_out (t : Transport) (options : ApiClientOptions) : Prop :=
  race (timeout options) t = Some TimedOut.

End Wrapper.

Arguments Responds {T} _ _ _.
Arguments Unreachable {T} _.
Arguments Hangs {T}.

(** ** The authentication client factory *)

Section AuthClient.

(** The client type and constructor of the authentication library. *)
Variable Client : Type.
Variable createBrowserClient : option string -> option string -> Client.

(** [supabaseUrl] as it stands when the client is built.  An unset
    environment value is [undefined]. *)
Definition supabaseUrl (NEXT_PUBLIC_SUPABASE_URL : option string)
  : option string :=
  match NEXT_PUBLIC_SUPABASE_URL with
  | Some u =>
      if negb (u =? "")%string && negb (String.prefix "http" u)
      then Some ("http://" ++ u)
      else Some u
  | None => None
  end.

Definition createClient
  (NEXT_PUBLIC_SUPABASE_URL NEXT_PUBLIC_SUPABASE_ANON_KEY : option string)
  : Client :=
  createBrowserClient (supabaseUrl NEXT_PUBLIC_SUPABASE_URL)
    NEXT_PUBLIC_SUPABASE_ANON_KEY.

End AuthClient.

(** A URL carries a scheme when a [://] follows a non-empty head. *)
Definition has_scheme (u : string) : bool :=
  match String.index 0 "://" u with
  | Some (S _) => true
  | _ => false
  end.

(** ** Shapes of input the statements below speak about *)

(** An [Error] instance that rule 2 handles: not a [BillingError]. *)
Definition is_generic_error (v : Value) : bool :=
  instanceof_Error v && negb (instanceof_BillingError v).

(** A field that holds text, or nothing the classifier would return. *)
Definition text_or_absent (x : Value) : bool :=
  typeof_string x || negb (truthy x).

(** The message fields the classifier may hand back hold text: the
    value's own [message] (which rule 2 returns even when it is falsy),
    its [detail.message] and its [error.message]. *)
Definition textual_messages (v : Value) : bool :=
  (if is_generic_error v then typeof_string (field v "message")
   else text_or_absent (field v "message"))
  && text_or_absent (field (field v "detail") "message")
  && text_or_absent (field (field v "error") "message").

(** ** Further vocabulary for the statements below *)

(** The thirteen texts [getStatusMessage] can return. *)
Definition status_messages : list string :=
  map snd status_table ++ [default_status_message].

(** The three literals [extractErrorMessage] writes out itself. *)
Definition classifier_literals : list string :=
  [ "Billing issue detected"; "Unknown error"; "An unexpected error occurred" ].

(** The places of the input [extractErrorMessage] may hand back as they
    are: the value itself, [message], [detail.message], [error] and
    [error.message]. *)
Definition input_fields (v : Value) : list Value :=
  [ v; field v "message"; field (field v "detail") "message";
    field v "error"; field (field v "error") "message" ].

(** A primitive other than text: [undefined], [null], a boolean or a
    number. *)
Definition nontext_primitive (v : Value) : bool :=
  match v with
  | JStr _ | JObj _ _ => false
  | _ => true
  end.

(** The integers a JavaScript number holds exactly and prints in plain
    decimal digits. *)
Definition safe_integer (z : Z) : Prop :=
  - (2 ^ 53 - 1) <= z <= 2 ^ 53 - 1.

(** A number the model prints as JavaScript does: [NaN] or a safe
    integer. *)
Definition safe_number (n : number) : Prop :=
  match n with
  | Finite z => safe_integer z
  | NaN => True
  end.

(** The own properties of an object without the one named [k]. *)
Definition remove_prop (k : string) (props : list (string * Value))
  : list (string * Value) :=
  filter (fun p => negb (fst p =? k)%string) props.

(** Two field values the truthiness tests cannot tell apart: the same
    value, or two falsy ones. *)
Definition agree (x y : Value) : Prop :=
  x = y \/ (truthy x = false /\ truthy y = false).

(** * Properties *)

(** ** Property reads *)

Lemma get_opt_field (v : Value) (k : string) :
  get_opt v k = Normal (field v k).
Proof.
  destruct v as [ | | b | n | s | c props ]; simpl; try reflexivity.
  destruct (lookup k props); reflexivity.
Qed.

Lemma get_field (v : Value) (k : string) :
  nullish v = false -> get v k = Normal (field v k).
Proof.
  intros Hv. rewrite <- get_opt_field.
  destruct v; simpl in *; try discriminate; reflexivity.
Qed.

Lemma truthy_not_nullish (v : Value) : truthy v = true -> nullish v = false.
Proof. destruct v; simpl; intros H; try discriminate; reflexivity. Qed.

Lemma get_truthy (v : Value) (k : string) :
  truthy v = true -> get v k = Normal (field v k).
Proof. intros H. apply get_field, truthy_not_nullish, H. Qed.

Lemma instance_not_nullish (v : Value) :
  instanceof_Error v = true -> nullish v = false.
Proof. destruct v; simpl; intros H; try discriminate; reflexivity. Qed.

Lemma billing_is_error (v : Value) :
  instanceof_BillingError v = true -> instanceof_Error v = true.
Proof.
  destruct v as [ | | b | n | s | c props ]; simpl; try discriminate.
  destruct c; intros H; try discriminate; reflexivity.
Qed.

Lemma field_nullish (v : Value) (k : string) :
  nullish v = true -> field v k = JUndefined.
Proof. destruct v; simpl; intros H; try discriminate; reflexivity. Qed.


(** ** The classifier, rule by rule

    Every property read of [extractErrorMessage] is guarded, so the
    function can be read off as a cascade over [field]. *)

Lemma rule_billing (v : Value) :
  instanceof_BillingError v = true ->
  extractErrorMessage v =
    Normal (or_else (field (field v "detail") "message")
              (or_else (field v "message") (JStr "Billing issue detected"))).
Proof.
  intros Hb. unfold extractErrorMessage. rewrite Hb.
  pose proof (instance_not_nullish v (billing_is_error v Hb)) as Hn.
  rewrite (get_field v "detail" Hn), (get_field v "message" Hn). simpl.
  rewrite get_opt_field. simpl.
  unfold or_else at 2.
  destruct (truthy (field (field v "detail") "message")); reflexivity.
Qed.

Lemma rule_error (v : Value) :
  instanceof_BillingError v = false ->
  instanceof_Error v = true ->
  extractErrorMessage v = Normal (field v "message").
Proof.
  intros Hb He. unfold extractErrorMessage. rewrite Hb, He.
  apply get_field, instance_not_nullish, He.
Qed.

Lemma not_error_not_billing (v : Value) :
  instanceof_Error v = false -> instanceof_BillingError v = false.
Proof.
  intros He. destruct (instanceof_BillingError v) eqn:Hb; [ | reflexivity ].
  apply billing_is_error in Hb. congruence.
Qed.

Lemma rule_response (v : Value) :
  instanceof_Error v = false ->
  truthy (field v "response") = true ->
  extractErrorMessage v =
    Normal (JStr (getStatusMessage (field (field v "response") "status"))).
Proof.
  intros He Hr. unfold extractErrorMessage.
  rewrite (not_error_not_billing v He), He, get_opt_field. simpl. rewrite Hr.
  assert (Hn : nullish v = false).
  { destruct v; simpl in *; try discriminate; reflexivity. }
  rewrite (get_field v "response" Hn). simpl.
  rewrite (get_truthy _ "status" Hr). reflexivity.
Qed.

Lemma rule_status (v : Value) :
  instanceof_Error v = false ->
  truthy (field v "response") = false ->
  truthy (field v "status") = true ->
  extractErrorMessage v = Normal (JStr (getStatusMessage (field v "status"))).
Proof.
  intros He Hr Hs. unfold extractErrorMessage.
  rewrite (not_error_not_billing v He), He, get_opt_field. simpl. rewrite Hr.
  rewrite get_opt_field. simpl. rewrite Hs.
  assert (Hn : nullish v = false).
  { destruct v; simpl in *; try discriminate; reflexivity. }
  rewrite (get_field v "status" Hn). reflexivity.
Qed.

Lemma rule_string (s : string) :
  extractErrorMessage (JStr s) = Normal (JStr s).
Proof. reflexivity. Qed.

(** The rules after the two status rules, for a value that is not text. *)
Lemma rule_rest (v : Value) :
  instanceof_Error v = false ->
  truthy (field v "response") = false ->
  truthy (field v "status") = false ->
  typeof_string v = false ->
  extractErrorMessage v =
    Normal
      (if truthy (field v "message") then field v "message"
       else if truthy (field v "error") then
         if typeof_string (field v "error") then field v "error"
         else or_else (field (field v "error") "message") (JStr "Unknown error")
       else JStr "An unexpected error occurred").
Proof.
  intros He Hr Hs Ht. unfold extractErrorMessage.
  rewrite (not_error_not_billing v He), He, get_opt_field. simpl. rewrite Hr.
  rewrite get_opt_field. simpl. rewrite Hs, Ht.
  rewrite get_opt_field. simpl.
  destruct (truthy (field v "message")) eqn:Hm.
  - apply get_field. destruct v; simpl in *; try discriminate; reflexivity.
  - rewrite get_opt_field. simpl.
    destruct (truthy (field v "error")) eqn:Hx; [ | reflexivity ].
    assert (Hn : nullish v = false).
    { destruct v; simpl in *; try discriminate; reflexivity. }
    rewrite (get_field v "error" Hn). simpl.
    destruct (typeof_string (field v "error")) eqn:Hy; [ reflexivity | ].
    rewrite (get_truthy _ "message" Hx). reflexivity.
Qed.

(** ** The status table *)

Lemma getStatusMessage_table (s : Z) :
  getStatusMessage (num s) = table_message s.
Proof.
  unfold getStatusMessage, table_message, status_table, table_find,
    strict_eq_lit, num.
  repeat
    match goal with
    | |- context [ ?k =? s ] => rewrite (Z.eqb_sym k s)
    end.
  repeat
    match goal with
    | |- context [ s =? ?k ] =>
        destruct (Z.eqb_spec s k) as [ -> | ? ]; [ reflexivity | ]
    end.
  reflexivity.
Qed.

Lemma table_message_listed (s : Z) (m : string) :
  In (s, m) status_table -> table_message s = m.
Proof.
  unfold status_table. simpl.
  intros H.
  repeat
    match type of H with
    | _ \/ _ => destruct H as [ H | H ]
    | (_, _) = (_, _) => injection H as <- <-; reflexivity
    | False => contradiction
    end.
Qed.

Lemma table_message_unlisted (s : Z) :
  ~ In s (map fst status_table) -> table_message s = default_status_message.
Proof.
  unfold status_table. simpl. intros H.
  unfold table_message, status_table, table_find.
  repeat
    match goal with
    | |- context [ ?k =? s ] =>
        destruct (Z.eqb_spec k s) as [ E | ? ];
        [ exfalso; apply H; rewrite <- E; tauto | ]
    end.
  reflexivity.
Qed.


(** C1.  For a plain object that embeds a response object carrying the
    status [s], as in [{response: {status: s}}]: when [s] is one of the
    twelve codes of the status table the classifier returns exactly the
    table's message for [s], and for every [s] that is not in the table it
    returns the default message "An unexpected error occurred. Please try
    again.".  The table's codes are 400, 401, 403, 404, 408, 409, 422,
    429, 500, 502, 503 and 504. *)
Theorem classify_response_status
  (props rprops : list (string * Value)) (c : Class) (s : Z) :
  lookup "response" props = Some (JObj c rprops) ->
  lookup "status" rprops = Some (num s) ->
  (forall m, In (s, m) status_table ->
     extractErrorMessage (obj props) = Normal (JStr m))
  /\ (~ In s (map fst status_table) ->
        extractErrorMessage (obj props) = Normal (JStr default_status_message))
  /\ map fst status_table =
       [400; 401; 403; 404; 408; 409; 422; 429; 500; 502; 503; 504].
Proof.
  intros Hr Hs.
  assert (E : extractErrorMessage (obj props) = Normal (JStr (table_message s))).
  { rewrite rule_response.
    - simpl. rewrite Hr. simpl. rewrite Hs.
      rewrite getStatusMessage_table. reflexivity.
    - reflexivity.
    - simpl. rewrite Hr. reflexivity. }
  split; [ | split ].
  - intros m Hm. rewrite E, (table_message_listed s m Hm). reflexivity.
  - intros Hn. rewrite E, (table_message_unlisted s Hn). reflexivity.
  - reflexivity.
Qed.

Lemma classify_response_status_witness :
  extractErrorMessage (obj [("response", obj [("status", num 404)])])
    = Normal (JStr "The requested resource was not found.")
  /\ extractErrorMessage (obj [("response", obj [("status", num 418)])])
    = Normal (JStr "An unexpected error occurred. Please try again.").
Proof.
  split.
  - apply (proj1 (classify_response_status
                    [("response", obj [("status", num 404)])]
                    [("status", num 404)] PlainObject 404
                    eq_refl eq_refl)).
    simpl. tauto.
  - apply (proj1 (proj2 (classify_response_status
                    [("response", obj [("status", num 418)])]
                    [("status", num 418)] PlainObject 418
                    eq_refl eq_refl))).
    simpl. intros H.
    repeat (destruct H as [ H | H ]; [ discriminate H | ]).
    exact H.
Defined.

(** ** Rule 1: billing errors *)

(** C3, as the code has it.  For every [BillingError] value the
    classifier returns its detail message when that is present; when the
    detail message is absent or empty it returns the error's generic
    message; and when that too is absent or empty it returns the fixed
    literal "Billing issue detected".  (Absent reads: missing or falsy,
    the empty text included.) *)
Theorem classify_billing_error (e : Value) :
  instanceof_BillingError e = true ->
  (present (field (field e "detail") "message") ->
     extractErrorMessage e = Normal (field (field e "detail") "message"))
  /\ (absent (field (field e "detail") "message") ->
      present (field e "message") ->
        extractErrorMessage e = Normal (field e "message"))
  /\ (absent (field (field e "detail") "message") ->
      absent (field e "message") ->
        extractErrorMessage e = Normal (JStr "Billing issue detected")).
Proof.
  intros Hb. rewrite (rule_billing e Hb). unfold present, absent, or_else.
  repeat split.
  - intros ->. reflexivity.
  - intros -> ->. reflexivity.
  - intros -> ->. reflexivity.
Qed.

Lemma classify_billing_error_witness :
  extractErrorMessage
    (BillingError_new (Finite 402) (mkDetail "X" []) (Some "Y"))
    = Normal (JStr "X")
  /\ extractErrorMessage
       (JObj BillingErrorObject [("message", JStr "Y")])
     = Normal (JStr "Y")
  /\ extractErrorMessage (JObj BillingErrorObject [])
     = Normal (JStr "Billing issue detected").
Proof.
  split; [ | split ].
  - apply (proj1 (classify_billing_error
                    (BillingError_new (Finite 402) (mkDetail "X" []) (Some "Y"))
                    eq_refl)).
    reflexivity.
  - apply (proj1 (proj2 (classify_billing_error
                    (JObj BillingErrorObject [("message", JStr "Y")])
                    eq_refl))); reflexivity.
  - apply (proj2 (proj2 (classify_billing_error
                    (JObj BillingErrorObject []) eq_refl))); reflexivity.
Defined.

(** C3, as stated, fails on an empty detail message: a [BillingError]
    built with [detail.message = ""] and the message "Y" has the detail
    message [""], and the classifier answers "Y". *)
Lemma classify_billing_empty_detail :
  let e := BillingError_new (Finite 402) (mkDetail "" []) (Some "Y") in
  field (field e "detail") "message" = JStr ""
  /\ extractErrorMessage e = Normal (JStr "Y")
  /\ extractErrorMessage e <> Normal (field (field e "detail") "message").
Proof. repeat split. discriminate. Qed.

(** ** Rule 2 before rules 3 and 4 *)

(** C6.  The first matching rule wins: for every value that rule 2
    handles (an [Error] instance that is not a [BillingError]) and that
    also carries an embedded response object or a bare numeric status
    field, the classifier returns the value's message verbatim, whatever
    the status table holds for that status. *)
Theorem classify_error_before_status (v : Value) :
  is_generic_error v = true ->
  present (field v "response") \/ (exists n, field v "status" = JNum n) ->
  extractErrorMessage v = Normal (field v "message").
Proof.
  unfold is_generic_error. intros Hg _.
  apply andb_true_iff in Hg. destruct Hg as [ He Hb ].
  apply negb_true_iff in Hb. apply rule_error; assumption.
Qed.

Lemma classify_error_before_status_witness :
  extractErrorMessage
    (JObj ErrorObject
       [("message", JStr "boom");
        ("response", obj [("status", num 404)]);
        ("status", num 404)])
    = Normal (JStr "boom").
Proof.
  apply (classify_error_before_status
           (JObj ErrorObject
              [("message", JStr "boom");
               ("response", obj [("status", num 404)]);
               ("status", num 404)])).
  - reflexivity.
  - left. reflexivity.
Defined.

(** ** Rule 7: the error field *)

(** C5, as the code has it.  For every value that no earlier rule takes
    (not an [Error] instance, not text, response, status and message
    absent): when the [error] field is a non-empty text the classifier
    returns that text verbatim; when it is any other truthy value with a
    present [message] the classifier returns that message; when it is any
    other truthy value without one (the empty object, say) the classifier
    returns "Unknown error". *)
Theorem classify_error_field (v : Value) :
  instanceof_Error v = false ->
  typeof_string v = false ->
  absent (field v "response") ->
  absent (field v "status") ->
  absent (field v "message") ->
  (forall s, field v "error" = JStr s -> s <> ""%string ->
     extractErrorMessage v = Normal (JStr s))
  /\ (typeof_string (field v "error") = false ->
      present (field v "error") ->
      present (field (field v "error") "message") ->
        extractErrorMessage v = Normal (field (field v "error") "message"))
  /\ (typeof_string (field v "error") = false ->
      present (field v "error") ->
      absent (field (field v "error") "message") ->
        extractErrorMessage v = Normal (JStr "Unknown error")).
Proof.
  unfold present, absent. intros He Ht Hr Hs Hm.
  rewrite (rule_rest v He Hr Hs Ht), Hm.
  repeat split.
  - intros s Hx Hne. rewrite Hx. simpl.
    destruct (String.eqb_spec s ""); [ contradiction | reflexivity ].
  - intros Hy Hx Hxm. rewrite Hx, Hy. unfold or_else. rewrite Hxm. reflexivity.
  - intros Hy Hx Hxm. rewrite Hx, Hy. unfold or_else. rewrite Hxm. reflexivity.
Qed.

Lemma classify_error_field_witness :
  extractErrorMessage (obj [("error", JStr "oops")]) = Normal (JStr "oops")
  /\ extractErrorMessage (obj [("error", obj [("message", JStr "oops2")])])
     = Normal (JStr "oops2")
  /\ extractErrorMessage (obj [("error", obj [])])
     = Normal (JStr "Unknown error").
Proof.
  split; [ | split ].
  - apply (proj1 (classify_error_field (obj [("error", JStr "oops")])
                    eq_refl eq_refl eq_refl eq_refl eq_refl) "oops").
    + reflexivity.
    + discriminate.
  - apply (proj1 (proj2 (classify_error_field
                    (obj [("error", obj [("message", JStr "oops2")])])
                    eq_refl eq_refl eq_refl eq_refl eq_refl))); reflexivity.
  - apply (proj2 (proj2 (classify_error_field (obj [("error", obj [])])
                    eq_refl eq_refl eq_refl eq_refl eq_refl))); reflexivity.
Defined.

(** C5, as stated, fails: a value whose [error] field is the empty text
    is not answered with that text but with the final default, and a
    value whose [error] field is text is answered by an earlier rule when
    one applies. *)
Lemma classify_error_field_empty :
  field (obj [("error", JStr "")]) "error" = JStr ""
  /\ extractErrorMessage (obj [("error", JStr "")])
     = Normal (JStr "An unexpected error occurred")
  /\ extractErrorMessage (obj [("error", JStr "oops"); ("message", JStr "m")])
     = Normal (JStr "m").
Proof. repeat split. Qed.

(** ** Totality and the shape of the result *)


Lemma text_or_absent_text (x : Value) :
  text_or_absent x = true -> truthy x = true -> typeof_string x = true.
Proof.
  unfold text_or_absent. intros H Ht. rewrite Ht in H. simpl in H.
  rewrite orb_false_r in H. exact H.
Qed.

Lemma classify_textual (v : Value) :
  textual_messages v = true ->
  exists s, extractErrorMessage v = Normal (JStr s).
Proof.
  assert (Txt : forall x, text_or_absent x = true -> truthy x = true ->
            exists s, x = JStr s).
  { intros x Hx Ht. pose proof (text_or_absent_text x Hx Ht) as H.
    destruct x; try discriminate H. eexists; reflexivity. }
  unfold textual_messages, is_generic_error. intros H.
  apply andb_true_iff in H. destruct H as [ H Hxm ].
  apply andb_true_iff in H. destruct H as [ Hm Hdm ].
  destruct (instanceof_BillingError v) eqn:Hb.
  - rewrite (rule_billing v Hb). rewrite (billing_is_error v Hb) in Hm.
    simpl in Hm. unfold or_else.
    destruct (truthy (field (field v "detail") "message")) eqn:T1.
    { destruct (Txt _ Hdm T1) as [ s -> ]. eexists; reflexivity. }
    destruct (truthy (field v "message")) eqn:T2.
    { destruct (Txt _ Hm T2) as [ s -> ]. eexists; reflexivity. }
    eexists; reflexivity.
  - destruct (instanceof_Error v) eqn:He.
    { rewrite (rule_error v Hb He). simpl in Hm.
      destruct (field v "message"); try discriminate Hm.
      eexists; reflexivity. }
    simpl in Hm.
    destruct (truthy (field v "response")) eqn:Hr.
    { rewrite (rule_response v He Hr). eexists; reflexivity. }
    destruct (truthy (field v "status")) eqn:Hs.
    { rewrite (rule_status v He Hr Hs). eexists; reflexivity. }
    destruct (typeof_string v) eqn:Ht.
    { destruct v as [ | | b | n | s | c props ]; try discriminate Ht.
      rewrite rule_string. eexists; reflexivity. }
    rewrite (rule_rest v He Hr Hs Ht).
    destruct (truthy (field v "message")) eqn:T2.
    { destruct (Txt _ Hm T2) as [ s -> ]. eexists; reflexivity. }
    destruct (truthy (field v "error")) eqn:T3; [ | eexists; reflexivity ].
    destruct (typeof_string (field v "error")) eqn:T4.
    { destruct (field v "error"); try discriminate T4. eexists; reflexivity. }
    unfold or_else.
    destruct (truthy (field (field v "error") "message")) eqn:T5.
    { destruct (Txt _ Hxm T5) as [ s -> ]. eexists; reflexivity. }
    eexists; reflexivity.
Qed.





(** C4, as the code has it.  On the values made of data properties the
    classifier is total and never throws: for every such input value
    evaluation completes normally with a value; for [null] and
    [undefined] that value is "An unexpected error occurred"; and the
    value is a string whenever the message fields the classifier may
    hand back hold text.  (A property read that runs an accessor or a
    proxy trap can throw, and the classifier has no handler for it.) *)
Theorem classify_total (v : Value) :
  exists r,
    extractErrorMessage v = Normal r
    /\ (nullish v = true -> r = JStr "An unexpected error occurred")
    /\ (textual_messages v = true -> typeof_string r = true).
Proof.
  unfold textual_messages, is_generic_error.
  destruct (instanceof_BillingError v) eqn:Hb.
  - rewrite (rule_billing v Hb), (billing_is_error v Hb). simpl.
    eexists; split; [ reflexivity | ]. split.
    + intros Hn. destruct v; discriminate.
    + intros H. apply andb_true_iff in H. destruct H as [ H _ ].
      apply andb_true_iff in H. destruct H as [ Hm Hd ].
      unfold or_else.
      destruct (truthy (field (field v "detail") "message")) eqn:Hdm.
      * apply text_or_absent_text; assumption.
      * destruct (truthy (field v "message")) eqn:Hmm;
          [ apply text_or_absent_text; assumption | reflexivity ].
  - destruct (instanceof_Error v) eqn:He.
    { rewrite (rule_error v Hb He). simpl.
      eexists; split; [ reflexivity | ]. split.
      - intros Hn. destruct v; discriminate.
      - intros H. apply andb_true_iff in H. destruct H as [ H _ ].
        apply andb_true_iff in H. destruct H as [ Hm _ ]. exact Hm. }
    simpl.
    destruct (truthy (field v "response")) eqn:Hr.
    { rewrite (rule_response v He Hr).
      eexists; split; [ reflexivity | ]. split; [ | reflexivity ].
      intros Hn. rewrite (field_nullish v _ Hn) in Hr. discriminate Hr. }
    destruct (truthy (field v "status")) eqn:Hs.
    { rewrite (rule_status v He Hr Hs).
      eexists; split; [ reflexivity | ]. split; [ | reflexivity ].
      intros Hn. rewrite (field_nullish v _ Hn) in Hs. discriminate Hs. }
    destruct (typeof_string v) eqn:Ht.
    { destruct v as [ | | b | n | s | c props ]; try discriminate Ht.
      rewrite rule_string.
      eexists; split; [ reflexivity | ]. split; [ discriminate | reflexivity ]. }
    rewrite (rule_rest v He Hr Hs Ht).
    eexists; split; [ reflexivity | ]. split.
    + intros Hn. rewrite !(field_nullish v _ Hn). reflexivity.
    + intros H. apply andb_true_iff in H. destruct H as [ H Hxm ].
      apply andb_true_iff in H. destruct H as [ Hm _ ].
      destruct (truthy (field v "message")) eqn:Hmm;
        [ apply text_or_absent_text; assumption | ].
      destruct (truthy (field v "error")) eqn:Hx; [ | reflexivity ].
      destruct (typeof_string (field v "error")) eqn:Hy; [ exact Hy | ].
      unfold or_else.
      destruct (truthy (field (field v "error") "message")) eqn:Hxmm;
        [ apply text_or_absent_text; assumption | reflexivity ].
Qed.

Lemma classify_total_witness :
  exists r,
    extractErrorMessage JNull = Normal r
    /\ r = JStr "An unexpected error occurred"
    /\ typeof_string r = true.
Proof.
  destruct (classify_total JNull) as [ r [ Hr [ Hn Ht ] ] ].
  exists r. split; [ exact Hr | ].
  split; [ apply Hn; reflexivity | apply Ht; reflexivity ].
Defined.

(** C4, as stated, fails on the kind of the result: an object whose
    [message] field holds the number 42 is answered with that number,
    which is not a string. *)
Lemma classify_returns_number :
  extractErrorMessage (obj [("message", num 42)]) = Normal (num 42)
  /\ typeof_string (num 42) = false.
Proof. split; reflexivity. Qed.

(** ** Falsy fields *)

Lemma lookup_remove_same (k : string) (props : list (string * Value)) :
  lookup k (remove_prop k props) = None.
Proof.
  induction props as [ | [ k0 v0 ] rest IH ]; [ reflexivity | ].
  unfold remove_prop in *. simpl.
  destruct (String.eqb_spec k0 k) as [ E | N ]; simpl; [ exact IH | ].
  destruct (String.eqb_spec k0 k) as [ E | _ ]; [ contradiction | exact IH ].
Qed.

Lemma lookup_remove_other (k k' : string) (props : list (string * Value)) :
  k' <> k -> lookup k' (remove_prop k props) = lookup k' props.
Proof.
  intros Hk. induction props as [ | [ k0 v0 ] rest IH ]; [ reflexivity | ].
  unfold remove_prop in *. simpl.
  destruct (String.eqb_spec k0 k) as [ E | N ]; simpl.
  - destruct (String.eqb_spec k0 k') as [ E' | _ ]; [ | exact IH ].
    exfalso. apply Hk. rewrite <- E', E. reflexivity.
  - rewrite IH. reflexivity.
Qed.

Lemma field_remove (k k' : string) (props : list (string * Value)) :
  absent (field (obj props) k) ->
  agree (field (obj (remove_prop k props)) k') (field (obj props) k').
Proof.
  unfold absent. intros Hk. destruct (String.eqb_spec k' k) as [ -> | N ].
  - right. split; [ | exact Hk ].
    simpl. rewrite lookup_remove_same. reflexivity.
  - left. simpl. rewrite (lookup_remove_other k k' props N). reflexivity.
Qed.

Lemma agree_truthy (x y : Value) : agree x y -> truthy x = truthy y.
Proof. intros [ -> | [ Hx Hy ] ]; [ reflexivity | congruence ]. Qed.

Lemma agree_present (x y : Value) : agree x y -> truthy x = true -> x = y.
Proof. intros [ E | [ Hx _ ] ] H; [ exact E | congruence ]. Qed.

(** Two values that are neither [Error] instances nor text and whose
    four fields agree are classified alike. *)
Lemma classify_agree (v w : Value) :
  instanceof_Error v = false -> instanceof_Error w = false ->
  typeof_string v = false -> typeof_string w = false ->
  agree (field v "response") (field w "response") ->
  agree (field v "status") (field w "status") ->
  agree (field v "message") (field w "message") ->
  agree (field v "error") (field w "error") ->
  extractErrorMessage v = extractErrorMessage w.
Proof.
  intros Hv Hw Tv Tw Ar As Am Ae.
  pose proof (agree_truthy _ _ Ar) as Tr.
  pose proof (agree_truthy _ _ As) as Ts.
  pose proof (agree_truthy _ _ Am) as Tm.
  pose proof (agree_truthy _ _ Ae) as Te.
  destruct (truthy (field v "response")) eqn:Hr.
  { rewrite (rule_response v Hv Hr), (rule_response w Hw (eq_sym Tr)).
    rewrite (agree_present _ _ Ar Hr). reflexivity. }
  destruct (truthy (field v "status")) eqn:Hs.
  { rewrite (rule_status v Hv Hr Hs),
      (rule_status w Hw (eq_sym Tr) (eq_sym Ts)).
    rewrite (agree_present _ _ As Hs). reflexivity. }
  rewrite (rule_rest v Hv Hr Hs Tv),
    (rule_rest w Hw (eq_sym Tr) (eq_sym Ts) Tw).
  rewrite <- Tm, <- Te.
  destruct (truthy (field v "message")) eqn:Hm.
  { rewrite (agree_present _ _ Am Hm). reflexivity. }
  destruct (truthy (field v "error")) eqn:He; [ | reflexivity ].
  rewrite (agree_present _ _ Ae He). reflexivity.
Qed.

(** C10, as the code has it.  The field-presence checks are truthiness
    checks, so a field holding a falsy value is treated as absent: for
    every plain object, a field that holds a falsy value (status 0, the
    empty message, the empty error text) has its rule skipped, the
    object being answered exactly as the same object without that field
    is, so that the following rules decide; and when the response,
    status, message and error fields are all missing or falsy, no rule
    matches and the answer is the final default "An unexpected error
    occurred". *)
Theorem classify_falsy_fields (v : Value) :
  instanceof_Error v = false ->
  typeof_string v = false ->
  (forall props k,
     v = obj props ->
     absent (field v k) ->
     extractErrorMessage v = extractErrorMessage (obj (remove_prop k props)))
  /\ (absent (field v "response") ->
      absent (field v "status") ->
      absent (field v "message") ->
      absent (field v "error") ->
      extractErrorMessage v = Normal (JStr "An unexpected error occurred")).
Proof.
  intros He Ht. split.
  - intros props k -> Hk. symmetry.
    apply classify_agree; try reflexivity; apply field_remove; exact Hk.
  - unfold absent. intros Hr Hs Hm Hx.
    rewrite (rule_rest v He Hr Hs Ht), Hm, Hx. reflexivity.
Qed.

Lemma classify_falsy_fields_witness :
  extractErrorMessage (obj [("status", num 0); ("message", JStr "hi")])
    = extractErrorMessage (obj [("message", JStr "hi")])
  /\ extractErrorMessage
       (obj [("status", num 0); ("message", JStr ""); ("error", JStr "")])
     = Normal (JStr "An unexpected error occurred").
Proof.
  split.
  - apply (proj1 (classify_falsy_fields
                    (obj [("status", num 0); ("message", JStr "hi")])
                    eq_refl eq_refl)
             [("status", num 0); ("message", JStr "hi")] "status"%string);
      reflexivity.
  - apply (proj2 (classify_falsy_fields
                    (obj [("status", num 0); ("message", JStr "");
                          ("error", JStr "")])
                    eq_refl eq_refl)); reflexivity.
Defined.

(** C10, as stated, fails: a plain object whose status field is 0 and
    that matches no earlier rule is not answered with the final default
    when a later rule matches; the skipped rule hands over to the next
    one. *)
Lemma classify_falsy_status_later_rule :
  extractErrorMessage (obj [("status", num 0); ("message", JStr "hi")])
    = Normal (JStr "hi")
  /\ extractErrorMessage (obj [("message", JStr ""); ("error", JStr "oops")])
    = Normal (JStr "oops").
Proof. split; reflexivity. Qed.

(** ** The BillingError constructor *)

Lemma str_or_nonempty (a b : string) : b <> ""%string -> str_or a b <> ""%string.
Proof.
  intros Hb. unfold str_or.
  destruct (String.eqb_spec a "") as [ E | N ]; assumption.
Qed.

Lemma str_or_empty (b : string) : str_or "" b = b.
Proof. reflexivity. Qed.

Lemma BillingError_message_nonempty
  (status : number) (detail : Detail) (message : option string) :
  BillingError_message status detail message <> ""%string.
Proof.
  unfold BillingError_message.
  apply str_or_nonempty, str_or_nonempty. discriminate.
Qed.

(** C9.  Every [BillingError] the constructor produces has a non-empty
    message string and the name "BillingError"; when the optional
    message argument and [detail.message] are both absent or empty the
    message is "Billing Error: " followed by the status. *)
Theorem BillingError_new_message
  (status : number) (detail : Detail) (message : option string) :
  exists m,
    get (BillingError_new status detail message) "message" = Normal (JStr m)
    /\ m <> ""%string
    /\ get (BillingError_new status detail message) "name"
       = Normal (JStr "BillingError")
    /\ instanceof_BillingError (BillingError_new status detail message) = true
    /\ (message = None \/ message = Some ""%string ->
        detail_message detail = ""%string ->
        m = ("Billing Error: " ++ number_to_string status)%string).
Proof.
  exists (BillingError_message status detail message).
  split; [ reflexivity | ].
  split; [ apply BillingError_message_nonempty | ].
  split; [ reflexivity | ].
  split; [ reflexivity | ].
  intros Hm Hd. unfold BillingError_message. rewrite Hd.
  destruct Hm as [ -> | -> ]; reflexivity.
Qed.

Lemma BillingError_new_message_witness :
  get (BillingError_new (Finite 402) (mkDetail "" []) None) "message"
    = Normal (JStr "Billing Error: 402")
  /\ get (BillingError_new (Finite 402) (mkDetail "" []) (Some ""%string)) "name"
    = Normal (JStr "BillingError").
Proof.
  split.
  - destruct (BillingError_new_message (Finite 402) (mkDetail "" []) None)
      as [ m [ Hget [ _ [ _ [ _ Hm ] ] ] ] ].
    rewrite Hget, (Hm (or_introl eq_refl) eq_refl). reflexivity.
  - destruct (BillingError_new_message (Finite 402) (mkDetail "" [])
                (Some ""%string))
      as [ m [ _ [ _ [ Hname _ ] ] ] ].
    exact Hname.
Defined.

(** ** The invocation wrapper *)

(** C7.  For every invocation whose call times out, the wrapper returns
    the failure branch [{success: false}] carrying a network-kind error,
    built without a status, never a response-kind error, whatever status
    the server's late answer carries. *)
Theorem invoke_timeout_network_error
  (T : Type) (network_message : string)
  (t : Transport T) (options : ApiClientOptions) :
  times_out T t options ->
  exists e notes,
    invoke T network_message t options
      = Some (mkApiResponse None (Some e) false, notes)
    /\ error_kind e = NetworkError
    /\ error_kind e <> ResponseError
    /\ error_status e = None.
Proof.
  unfold times_out, invoke. intros ->.
  eexists. eexists. split; [ reflexivity | ].
  split; [ reflexivity | ]. split; [ discriminate | reflexivity ].
Qed.

Lemma invoke_timeout_network_error_witness :
  exists e notes,
    invoke nat "Network error" (Responds 10%nat 500 7%nat)
      (mkApiClientOptions None None (Some 5%nat))
      = Some (mkApiResponse None (Some e) false, notes)
    /\ error_kind e = NetworkError
    /\ error_kind e <> ResponseError
    /\ error_status e = None.
Proof.
  apply (invoke_timeout_network_error nat "Network error"
           (Responds 10%nat 500 7%nat)
           (mkApiClientOptions None None (Some 5%nat))).
  reflexivity.
Defined.

(** ** The authentication client factory *)

Lemma supabaseUrl_http (u : string) :
  String.prefix "http" u = true -> supabaseUrl (Some u) = Some u.
Proof.
  intros Hp. unfold supabaseUrl. rewrite Hp, andb_false_r. reflexivity.
Qed.

(** C8, as the code has it.  The factory prefixes "http://" to every
    configured URL that is non-empty and does not begin with the text
    "http", and passes on unchanged every URL that begins with "http" (so
    every [http://] and [https://] URL), the empty URL and the unset
    one. *)
Theorem createClient_url
  (Client : Type) (createBrowserClient : option string -> option string -> Client)
  (key : option string) :
  (forall u, u <> ""%string -> String.prefix "http" u = false ->
     createClient Client createBrowserClient (Some u) key
     = createBrowserClient (Some ("http://" ++ u)%string) key)
  /\ (forall u, String.prefix "http" u = true ->
        createClient Client createBrowserClient (Some u) key
        = createBrowserClient (Some u) key)
  /\ (forall rest,
        createClient Client createBrowserClient
          (Some ("http://" ++ rest)%string) key
        = createBrowserClient (Some ("http://" ++ rest)%string) key
        /\ createClient Client createBrowserClient
             (Some ("https://" ++ rest)%string) key
           = createBrowserClient (Some ("https://" ++ rest)%string) key)
  /\ createClient Client createBrowserClient (Some ""%string) key
     = createBrowserClient (Some ""%string) key
  /\ createClient Client createBrowserClient None key
     = createBrowserClient None key.
Proof.
  unfold createClient.
  split; [ | split; [ | split; [ | split ] ] ].
  - intros u Hu Hp. unfold supabaseUrl. rewrite Hp.
    destruct (String.eqb_spec u "") as [ E | N ];
      [ contradiction | reflexivity ].
  - intros u Hp. rewrite (supabaseUrl_http u Hp). reflexivity.
  - intros rest. split.
    + rewrite (supabaseUrl_http ("http://" ++ rest) eq_refl). reflexivity.
    + rewrite (supabaseUrl_http ("https://" ++ rest) eq_refl). reflexivity.
  - reflexivity.
  - reflexivity.
Qed.

Lemma createClient_url_witness :
  createClient (option string * option string) pair
    (Some "localhost:54321"%string) (Some "anon"%string)
  = (Some "http://localhost:54321"%string, Some "anon"%string)
  /\ createClient (option string * option string) pair
       (Some "https://project.example.co"%string) (Some "anon"%string)
     = (Some "https://project.example.co"%string, Some "anon"%string).
Proof.
  split.
  - apply (proj1 (createClient_url (option string * option string) pair
                    (Some "anon"%string)) "localhost:54321"%string).
    + discriminate.
    + reflexivity.
  - apply (proj1 (proj2 (createClient_url (option string * option string) pair
                    (Some "anon"%string))) "https://project.example.co"%string).
    reflexivity.
Defined.

(** C8, as stated, fails both ways: a URL that carries a scheme other
    than http is not passed through unchanged, and a URL without a scheme
    that happens to begin with "http", like the empty URL, gets no
    prefix. *)
Lemma createClient_scheme_mismatch :
  has_scheme "ftp://example.com" = true
  /\ createClient (option string * option string) pair
       (Some "ftp://example.com"%string) None
     = (Some "http://ftp://example.com"%string, None)
  /\ has_scheme "httpbin.org" = false
  /\ createClient (option string * option string) pair
       (Some "httpbin.org"%string) None
     = (Some "httpbin.org"%string, None)
  /\ has_scheme "" = false
  /\ createClient (option string * option string) pair (Some ""%string) None
     = (Some ""%string, None).
Proof. repeat (split; [ reflexivity | ]). reflexivity. Qed.


(** * Further properties of the code *)

(** ** getStatusMessage *)

Lemma strict_eq_lit_other (status : Value) (n : Z) :
  (forall z, status <> num z) -> strict_eq_lit status n = false.
Proof.
  intros H. destruct status as [ | | b | [ z | ] | s | c props ];
    try reflexivity.
  exfalso. apply (H z). reflexivity.
Qed.

Lemma getStatusMessage_other (status : Value) :
  (forall z, status <> num z) ->
  getStatusMessage status = default_status_message.
Proof.
  intros H. unfold getStatusMessage.
  rewrite !(strict_eq_lit_other status _ H). reflexivity.
Qed.

(** The [switch] compares with strict equality, so a status that is not
    a number (the text "404", [undefined], an object) and [NaN] get the
    default message. *)
Theorem getStatusMessage_not_a_number (status : Value) :
  (forall z, status <> num z) ->
  getStatusMessage status = default_status_message.
Proof.
  intros H. unfold getStatusMessage.
  assert (E : forall n, strict_eq_lit status n = false).
  { intros n. apply strict_eq_lit_other, H. }
  rewrite !E. reflexivity.
Qed.

Lemma getStatusMessage_not_a_number_witness :
  getStatusMessage (JStr "404") = default_status_message.
Proof.
  apply (getStatusMessage_not_a_number (JStr "404")).
  intros z. discriminate.
Defined.

Lemma table_message_cases (s : Z) :
  (In s (map fst status_table) /\ table_message s <> default_status_message)
  \/ (~ In s (map fst status_table) /\ table_message s = default_status_message).
Proof.
  unfold table_message, status_table, table_find.
  repeat
    match goal with
    | |- context [ ?k =? s ] =>
        destruct (Z.eqb_spec k s) as [ <- | ? ];
        [ left; split; [ simpl; tauto | discriminate ] | ]
    end.
  right. split; [ | reflexivity ].
  simpl. intros H.
  repeat (destruct H as [ H | H ]; [ congruence | ]).
  exact H.
Qed.

(** The message tells the status: a listed status shares its message
    with no other number, listed or not, so the twelve messages differ
    from one another and from the default. *)
Theorem getStatusMessage_injective (s1 s2 : Z) :
  In s1 (map fst status_table) ->
  getStatusMessage (num s1) = getStatusMessage (num s2) ->
  s1 = s2.
Proof.
  rewrite !getStatusMessage_table. intros H1 E.
  destruct (table_message_cases s2) as [ [ H2 _ ] | [ _ D2 ] ].
  - simpl in H1, H2.
    repeat (destruct H1 as [ H1 | H1 ]; [ subst s1 | ]); try contradiction;
      repeat (destruct H2 as [ H2 | H2 ]; [ subst s2 | ]); try contradiction;
      first [ reflexivity | discriminate E ].
  - rewrite D2 in E.
    destruct (table_message_cases s1) as [ [ _ N1 ] | [ N1 _ ] ];
      contradiction.
Qed.

Lemma getStatusMessage_injective_witness :
  (getStatusMessage (num 408) =? getStatusMessage (num 504))%string = false.
Proof.
  destruct (String.eqb_spec (getStatusMessage (num 408))
              (getStatusMessage (num 504))) as [ E | _ ]; [ | reflexivity ].
  apply (getStatusMessage_injective 408 504) in E.
  - discriminate E.
  - simpl. tauto.
Defined.

Lemma getStatusMessage_range (status : Value) :
  In (getStatusMessage status) status_messages.
Proof.
  unfold getStatusMessage.
  repeat
    match goal with
    | |- context [ if ?b then _ else _ ] =>
        destruct b; [ unfold status_messages; simpl; tauto | ]
    end.
  unfold status_messages. simpl. tauto.
Qed.

(** ** extractErrorMessage: how the rules shadow one another *)

(** A present response decides alone: when the response carries no
    numeric status (an empty response object, say) the answer is the
    default status message, even if the value has a listed bare status,
    a message or an error field of its own. *)
Theorem classify_response_without_status (v : Value) :
  instanceof_Error v = false ->
  present (field v "response") ->
  (forall z, field (field v "response") "status" <> num z) ->
  extractErrorMessage v = Normal (JStr default_status_message).
Proof.
  unfold present. intros He Hr Hs.
  rewrite (rule_response v He Hr).
  rewrite (getStatusMessage_other _ Hs). reflexivity.
Qed.

Lemma classify_response_without_status_witness :
  extractErrorMessage
    (obj [("response", obj []); ("status", num 404); ("message", JStr "m")])
  = Normal (JStr "An unexpected error occurred. Please try again.").
Proof.
  apply (classify_response_without_status
           (obj [("response", obj []); ("status", num 404);
                 ("message", JStr "m")])).
  - reflexivity.
  - reflexivity.
  - intros z. discriminate.
Defined.

(** The status rules come before the text and message rules: a value
    that is not an [Error] instance and has a present response or a
    present status is answered with one of the thirteen texts of the
    status table, never with its own message or error field; with no
    response and the bare status [z] it is the table's message for
    [z]. *)
Theorem classify_status_shadows_message (v : Value) :
  instanceof_Error v = false ->
  present (field v "response") \/ present (field v "status") ->
  exists m,
    extractErrorMessage v = Normal (JStr m)
    /\ In m status_messages
    /\ (forall z, absent (field v "response") -> field v "status" = num z ->
          m = table_message z).
Proof.
  unfold present, absent. intros He H.
  destruct (truthy (field v "response")) eqn:Hr.
  - eexists. split; [ apply (rule_response v He Hr) | ].
    split; [ apply getStatusMessage_range | ].
    intros z Habs. discriminate Habs.
  - destruct H as [ H | Hs ]; [ discriminate H | ].
    eexists. split; [ apply (rule_status v He Hr Hs) | ].
    split; [ apply getStatusMessage_range | ].
    intros z _ Hz. rewrite Hz. apply getStatusMessage_table.
Qed.

Lemma classify_status_shadows_message_witness :
  extractErrorMessage
    (obj [("status", num 404); ("message", JStr "custom text")])
  = Normal (JStr "The requested resource was not found.").
Proof.
  destruct (classify_status_shadows_message
              (obj [("status", num 404); ("message", JStr "custom text")])
              eq_refl (or_intror eq_refl))
    as [ m [ Hm [ _ Hz ] ] ].
  rewrite Hm, (Hz 404 eq_refl eq_refl). reflexivity.
Defined.

(** A primitive that is not text is never looked up in the status
    table: [undefined], [null], the booleans and the numbers, a thrown
    [404] included, all get the final default. *)
Theorem classify_nontext_primitive (v : Value) :
  nontext_primitive v = true ->
  extractErrorMessage v = Normal (JStr "An unexpected error occurred").
Proof.
  destruct v as [ | | b | n | s | c props ]; simpl; intros H;
    try discriminate H; reflexivity.
Qed.

Lemma classify_nontext_primitive_witness :
  extractErrorMessage (num 404) = Normal (JStr "An unexpected error occurred").
Proof. apply (classify_nontext_primitive (num 404)). reflexivity. Defined.

(** Classifying is idempotent where the message fields hold text:
    feeding the classifier's answer back into the classifier returns the
    same answer, because the answer is a text and text is returned as it
    is. *)
Theorem classify_idempotent (v : Value) :
  textual_messages v = true ->
  (r <- extractErrorMessage v ;; extractErrorMessage r) = extractErrorMessage v.
Proof.
  intros H. destruct (classify_textual v H) as [ s -> ].
  simpl. apply rule_string.
Qed.

Lemma classify_idempotent_witness :
  (r <- extractErrorMessage (obj [("error", obj [])]) ;; extractErrorMessage r)
  = Normal (JStr "Unknown error").
Proof.
  rewrite (classify_idempotent (obj [("error", obj [])]) eq_refl).
  reflexivity.
Defined.

(** The classifier invents nothing: its answer is one of the five places
    of its input (the value itself, [message], [detail.message], [error],
    [error.message]), one of its three literals, or one of the thirteen
    texts of the status table. *)
Theorem classify_provenance (v r : Value) :
  extractErrorMessage v = Normal r ->
  In r (input_fields v)
  \/ exists s, r = JStr s /\ In s (classifier_literals ++ status_messages).
Proof.
  assert (Lit : forall s, In s classifier_literals ->
            In (A := string) s (classifier_literals ++ status_messages)).
  { intros s Hs. apply in_or_app. left. exact Hs. }
  assert (Tab : forall st,
            In (getStatusMessage st) (classifier_literals ++ status_messages)).
  { intros st. apply in_or_app. right. apply getStatusMessage_range. }
  unfold input_fields.
  destruct (instanceof_BillingError v) eqn:Hb.
  - rewrite (rule_billing v Hb). intros [= <-]. unfold or_else.
    destruct (truthy (field (field v "detail") "message"));
      [ left; simpl; tauto | ].
    destruct (truthy (field v "message")); [ left; simpl; tauto | ].
    right. eexists. split; [ reflexivity | ]. apply Lit. simpl. tauto.
  - destruct (instanceof_Error v) eqn:He.
    { rewrite (rule_error v Hb He). intros [= <-]. left. simpl. tauto. }
    destruct (truthy (field v "response")) eqn:Hr.
    { rewrite (rule_response v He Hr). intros [= <-].
      right. eexists. split; [ reflexivity | apply Tab ]. }
    destruct (truthy (field v "status")) eqn:Hs.
    { rewrite (rule_status v He Hr Hs). intros [= <-].
      right. eexists. split; [ reflexivity | apply Tab ]. }
    destruct (typeof_string v) eqn:Ht.
    { destruct v as [ | | b | n | s | c props ]; try discriminate Ht.
      rewrite rule_string. intros [= <-]. left. simpl. tauto. }
    rewrite (rule_rest v He Hr Hs Ht). intros [= <-].
    destruct (truthy (field v "message")); [ left; simpl; tauto | ].
    destruct (truthy (field v "error"));
      [ | right; eexists; split; [ reflexivity | apply Lit; simpl; tauto ] ].
    destruct (typeof_string (field v "error")); [ left; simpl; tauto | ].
    unfold or_else.
    destruct (truthy (field (field v "error") "message"));
      [ left; simpl; tauto | ].
    right. eexists. split; [ reflexivity | ]. apply Lit. simpl. tauto.
Qed.

Lemma classify_provenance_witness :
  In (JStr "oops2")
    (input_fields (obj [("error", obj [("message", JStr "oops2")])]))
  \/ exists s,
       JStr "oops2" = JStr s /\ In s (classifier_literals ++ status_messages).
Proof.
  apply (classify_provenance
           (obj [("error", obj [("message", JStr "oops2")])]) (JStr "oops2")).
  reflexivity.
Defined.

(** ** The BillingError constructor and the classifier together *)

(** What a user sees for a [BillingError] the constructor built: always
    a non-empty text; the detail message when that is not empty, even
    when an explicit message was passed (which is then what the error's
    own [message] holds); and otherwise the error's own [message], so the
    classifier's literal "Billing issue detected" is not needed for
    it. *)
Theorem classify_constructed_billing_error
  (status : number) (detail : Detail) (message : option string) :
  exists s,
    extractErrorMessage (BillingError_new status detail message)
      = Normal (JStr s)
    /\ s <> ""%string
    /\ (detail_message detail <> ""%string -> s = detail_message detail)
    /\ (detail_message detail = ""%string ->
        get (BillingError_new status detail message) "message"
          = Normal (JStr s))
    /\ (forall m, message = Some m -> m <> ""%string ->
          get (BillingError_new status detail message) "message"
            = Normal (JStr m)).
Proof.
  exists (str_or (detail_message detail)
            (BillingError_message status detail message)).
  split.
  - rewrite rule_billing by reflexivity.
    change (field (field (BillingError_new status detail message) "detail")
              "message") with (JStr (detail_message detail)).
    change (field (BillingError_new status detail message) "message")
      with (JStr (BillingError_message status detail message)).
    unfold or_else, str_or at 1. simpl truthy.
    destruct (String.eqb_spec (detail_message detail) "") as [ E | N ];
      simpl; [ | reflexivity ].
    destruct (String.eqb_spec (BillingError_message status detail message) "")
      as [ E' | N' ]; simpl; [ | reflexivity ].
    destruct (BillingError_message_nonempty status detail message E').
  - split; [ apply str_or_nonempty, BillingError_message_nonempty | ].
    split; [ | split ].
    + intros N. unfold str_or at 1.
      destruct (String.eqb_spec (detail_message detail) "") as [ E | _ ];
        [ contradiction | reflexivity ].
    + intros ->. reflexivity.
    + intros m -> N.
      change (get (BillingError_new status detail (Some m)) "message")
        with (Normal (JStr (BillingError_message status detail (Some m)))).
      unfold BillingError_message, str_or at 1.
      destruct (String.eqb_spec m "") as [ E | _ ];
        [ contradiction | reflexivity ].
Qed.

Lemma classify_constructed_billing_error_witness :
  extractErrorMessage
    (BillingError_new (Finite 402) (mkDetail "Out of credits" [])
       (Some "Payment required"%string))
  = Normal (JStr "Out of credits")
  /\ get (BillingError_new (Finite 402) (mkDetail "Out of credits" [])
            (Some "Payment required"%string)) "message"
     = Normal (JStr "Payment required").
Proof.
  destruct (classify_constructed_billing_error (Finite 402)
              (mkDetail "Out of credits" []) (Some "Payment required"%string))
    as [ s [ Hs [ _ [ Hd [ _ Hm ] ] ] ] ].
  split.
  - rewrite Hs, (Hd ltac:(discriminate)). reflexivity.
  - apply (Hm "Payment required"%string eq_refl). discriminate.
Defined.

Lemma to_int_printable (z : Z) :
  NilZero.int_of_string (NilZero.string_of_int (Z.to_int z))
  = Some (Z.to_int z).
Proof.
  apply NilZero.isi.
  - destruct z as [ | p | p ]; simpl; try discriminate.
    intros [= H]. exact (Unsigned.to_uint_nonnil p H).
  - destruct z as [ | p | p ]; simpl; try discriminate.
    intros [= H]. exact (Unsigned.to_uint_nonnil p H).
Qed.

Lemma number_to_string_injective (a b : number) :
  number_to_string a = number_to_string b -> a = b.
Proof.
  destruct a as [ x | ], b as [ y | ]; simpl; intros E.
  - f_equal. apply DecimalZ.to_int_inj.
    pose proof (to_int_printable x) as Hx.
    pose proof (to_int_printable y) as Hy.
    rewrite E in Hx. rewrite Hx in Hy. injection Hy as Hy. exact Hy.
  - pose proof (to_int_printable x) as Hx. rewrite E in Hx. discriminate Hx.
  - pose proof (to_int_printable y) as Hy. rewrite <- E in Hy. discriminate Hy.
  - reflexivity.
Qed.

(** The fallback message tells the status: two errors built without an
    explicit message and with an empty detail message carry the same
    message only if their statuses are the same number.  The statuses
    are taken among the numbers whose printed form the model gives as
    JavaScript does. *)
Theorem BillingError_fallback_injective
  (a b : number) (d d' : Detail) :
  safe_number a -> safe_number b ->
  detail_message d = ""%string -> detail_message d' = ""%string ->
  BillingError_message a d None = BillingError_message b d' None ->
  a = b.
Proof.
  intros _ _ Hd Hd'. unfold BillingError_message. rewrite Hd, Hd'.
  rewrite !str_or_empty. simpl. intros E.
  apply number_to_string_injective.
  injection E as E. exact E.
Qed.

Lemma BillingError_fallback_injective_witness :
  (BillingError_message (Finite 402) (mkDetail "" []) None
   =? BillingError_message (Finite 403) (mkDetail "" [("code", JNull)]) None)%string
  = false.
Proof.
  destruct (String.eqb_spec
              (BillingError_message (Finite 402) (mkDetail "" []) None)
              (BillingError_message (Finite 403)
                 (mkDetail "" [("code", JNull)]) None))
    as [ E | _ ]; [ | reflexivity ].
  apply (BillingError_fallback_injective (Finite 402) (Finite 403)) in E.
  - discriminate E.
  - unfold safe_number, safe_integer. lia.
  - unfold safe_number, safe_integer. lia.
  - reflexivity.
  - reflexivity.
Defined.

(** ** The URL the authentication client is built with *)

Lemma supabaseUrl_shape (url : option string) (u' : string) :
  supabaseUrl url = Some u' ->
  u' = ""%string \/ String.prefix "http" u' = true.
Proof.
  destruct url as [ u | ]; [ | discriminate ]. unfold supabaseUrl.
  destruct (String.eqb_spec u "") as [ -> | N ]; simpl.
  - intros [= <-]. left. reflexivity.
  - destruct (String.prefix "http" u) eqn:Hp; simpl; intros [= <-]; right.
    + exact Hp.
    + reflexivity.
Qed.

(** Whatever is configured, the client is built with a URL that is
    unset, empty or begins with "http"; it is unset only when the
    configured one is. *)
Theorem createClient_url_shape
  (Client : Type) (createBrowserClient : option string -> option string -> Client)
  (url key : option string) :
  exists url',
    createClient Client createBrowserClient url key
      = createBrowserClient url' key
    /\ (url' = None <-> url = None)
    /\ (forall u', url' = Some u' ->
          u' = ""%string \/ String.prefix "http" u' = true).
Proof.
  exists (supabaseUrl url). split; [ reflexivity | ]. split.
  - destruct url as [ u | ]; simpl; [ | tauto ].
    destruct (negb (u =? "")%string && negb (String.prefix "http" u));
      split; discriminate.
  - apply supabaseUrl_shape.
Qed.

Lemma createClient_url_shape_witness :
  String.prefix "http" "http://localhost:54321" = true.
Proof.
  destruct (createClient_url_shape (option string * option string) pair
              (Some "localhost:54321"%string) None)
    as [ url' [ Hc [ _ Hs ] ] ].
  injection Hc as <-.
  destruct (Hs "http://localhost:54321"%string eq_refl) as [ H | H ];
    [ discriminate H | exact H ].
Defined.

(** Normalising the URL is idempotent: a client built from an already
    normalised URL is built from that same URL, so the prefix is never
    added twice. *)
Theorem createClient_url_idempotent
  (Client : Type) (createBrowserClient : option string -> option string -> Client)
  (url key : option string) :
  supabaseUrl (supabaseUrl url) = supabaseUrl url
  /\ createClient Client createBrowserClient (supabaseUrl url) key
     = createClient Client createBrowserClient url key.
Proof.
  assert (E : supabaseUrl (supabaseUrl url) = supabaseUrl url).
  { destruct (supabaseUrl url) as [ u' | ] eqn:Hu; [ | reflexivity ].
    destruct (supabaseUrl_shape url u' Hu) as [ -> | Hp ].
    - reflexivity.
    - apply supabaseUrl_http, Hp. }
  split; [ exact E | ]. unfold createClient. rewrite E. reflexivity.
Qed.
